(** * ComfyUI PowerShiftScheduler: a shallow embedding of [__init__.py]

    The module defines one schedule generator, [power_shift_scheduler], a
    node method [get_sigmas] that slices its result, and an import-time
    registration into the host's scheduler tables.

    Python floats and numpy [float64] entries are binary64 values, modelled
    by Rocq's primitive [float].  Python integers are [Z].  Python lists,
    numpy arrays and one-dimensional torch tensors are [list]s.  A Python
    exception is the [Raise] outcome of the [result] type. *)

From Stdlib Require Import ZArith Lia Bool List.
From Stdlib Require Import Floats.
From stdpp Require Import base option list strings gmap sorting.

Local Open Scope Z_scope.

(** ** Outcomes: a value or a Python exception *)

Inductive exn : Type :=
  | ValueError
  | OverflowError
  | IndexError
  | ZeroDivisionError.

Inductive result (A : Type) : Type :=
  | Ok (a : A)
  | Raise (e : exn).

Arguments Ok {A} a.
Arguments Raise {A} e.

(** The exception-propagating sequencing of Python statements, through
    stdpp's monad notations [x ← r; k] and [f <$> r]. *)
#[global] Instance result_ret : MRet result := fun A a => Ok a.

#[global] Instance result_bind : MBind result := fun A B k r =>
  match r with
  | Ok a => k a
  | Raise e => Raise e
  end.

#[global] Instance result_fmap : FMap result := fun A B f r =>
  match r with
  | Ok a => Ok (f a)
  | Raise e => Raise e
  end.

(** ** Number conversions *)

(** Conversion of a Python integer to a binary64 value (round to nearest
    even), as numpy does when an [int] meets a [float64].  Step counts and
    table lengths are far inside the binary64 range, where Python converts
    without an error. *)
Definition float_of_Z (z : Z) : float :=
  SF2Prim (binary_normalize prec emax z 0 false).

(** [int(t)] on a float: truncation toward zero; Python raises [ValueError]
    on NaN and [OverflowError] on an infinity. *)
Definition py_int (t : float) : result Z :=
  match Prim2SF t with
  | S754_zero _ => Ok 0
  | S754_finite s m e =>
      let a := if 0 <=? e then Z.pos m * 2 ^ e else Z.pos m / 2 ^ (- e) in
      Ok (if s then - a else a)
  | S754_infinity _ => Raise OverflowError
  | S754_nan => Raise ValueError
  end.

(** [numpy.rint]: the nearest integer, ties to the even one, as a float of
    the same sign; NaN, infinities and zeros are returned as they are. *)
Definition rint (x : float) : float :=
  match Prim2SF x with
  | S754_finite s m e =>
      if 0 <=? e then x
      else
        let d := 2 ^ (- e) in
        let q := Z.pos m / d in
        let r := Z.pos m mod d in
        let n := if 2 * r <? d then q
                 else if d <? 2 * r then q + 1
                 else if Z.even q then q else q + 1 in
        if s then (- float_of_Z n)%float else float_of_Z n
  | _ => x
  end.

(** ** Sequences: indexing and slicing *)

(** [sigmas[i]] on a one-dimensional tensor: a negative index counts from
    the end, an index outside [-len, len) raises [IndexError]. *)
Definition tensor_index (l : list float) (i : Z) : result float :=
  let j := if i <? 0 then i + Z.of_nat (length l) else i in
  if j <? 0 then Raise IndexError
  else from_option Ok (Raise IndexError) (l !! Z.to_nat j).

(** A slice bound [i] on a sequence of length [n]: negative bounds count
    from the end, and every bound is clamped into [0, n]. *)
Definition slice_bound (n : nat) (i : Z) : nat :=
  Z.to_nat (if i <? 0 then Z.max (i + Z.of_nat n) 0 else Z.min i (Z.of_nat n)).

(** [l[start:stop]] with step 1; [None] is an omitted bound. *)
Definition py_slice {A : Type} (l : list A) (start stop : option Z) : list A :=
  let a := from_option (slice_bound (length l)) 0%nat start in
  let b := from_option (slice_bound (length l)) (length l) stop in
  take (b - a) (drop a l).

(** ** Python values, for the argument tested with [is True] *)

Inductive pyval : Type :=
  | PyNone
  | PyBool (b : bool)
  | PyInt (z : Z)
  | PyFloat (f : float)
  | PyStr (s : string).

(** [v is True]: identity with the singleton [True]. *)
Definition is_True (v : pyval) : bool :=
  match v with
  | PyBool true => true
  | _ => false
  end.

(** [bool(v)], the truth value Python gives [v] in a condition. *)
Definition truthy (v : pyval) : bool :=
  match v with
  | PyNone => false
  | PyBool b => b
  | PyInt z => negb (z =? 0)
  | PyFloat f => negb (f =? 0)%float
  | PyStr s => match s with EmptyString => false | String _ _ => true end
  end.

(** ** The host objects *)

(** [model_sampling]: the object whose [sigmas] attribute is the model's
    sigma table.  Its entries are single-precision values, which
    [float(...)] and [torch.FloatTensor] carry unchanged. *)
Record ModelSampling : Type := { sigmas : list float }.

Record Model : Type := { get_model_object : string -> ModelSampling }.

Inductive tuple1 (A : Type) : Type := Tuple1 (a : A).
Arguments Tuple1 {A} a.

(** ** The schedule generator *)

Section PowerShift.

(** The C library's [pow], which numpy's elementwise [**] applies to each
    [float64] entry.  Its results are not fixed bit for bit by any
    standard, so it stays a parameter of the development. *)
Variable pow : float -> float -> float.

(** [x ** p] on one entry.  C99 (F.10.4.4) and IEEE 754 fix [pow(x, ±0)]
    to 1 for every [x], NaN included; numpy returns ones there as well. *)
Definition npy_power (x p : float) : float :=
  if (p =? 0)%float then 1%float else pow x p.

(** [numpy.linspace(0, 1, num, endpoint=False)]: entry [i] is
    [i * (1.0 / num) + 0.0]; a negative [num] raises [ValueError]. *)
Definition linspace01 (num : Z) : result (list float) :=
  if num <? 0 then Raise ValueError
  else Ok ((fun i => (float_of_Z i * (1 / float_of_Z num) + 0)%float) <$> seqZ 0 num).

(** [x ** p] on an array and a scalar exponent, entry by entry. *)
Definition power_array (x : list float) (p : float) : list float :=
  (fun xi => npy_power xi p) <$> x.

(** [x = numpy.linspace(...); x = x**midpoint_shift] *)
Definition shifted_positions (steps : Z) (midpoint_shift : float) : result (list float) :=
  x ← linspace01 steps;
  Ok (power_array x midpoint_shift).

(** [ts_normalized = (1 - x**power)**power] *)
Definition ts_normalized (x : list float) (power : float) : list float :=
  power_array ((fun v => (1 - v)%float) <$> power_array x power) power.

(** [ts = numpy.rint(ts_normalized * total_timesteps)] *)
Definition ts_rounded (tsn : list float) (total_timesteps : Z) : list float :=
  (fun v => rint (v * float_of_Z total_timesteps)) <$> tsn.

(** The [for t in ts] loop, with its two mutable variables [last_t] and
    [sigs] passed along. *)
Fixpoint collect_sigmas (table : list float) (total_timesteps : Z)
    (ts : list float) (last_t : Z) (sigs : list float) : result (list float) :=
  match ts with
  | [] => Ok sigs
  | t :: ts' =>
      i ← py_int t;
      let t_int := Z.min i total_timesteps in
      sigs' ← (if t_int =? last_t then Ok sigs
               else s ← tensor_index table t_int; Ok (sigs ++ [s]));
      collect_sigmas table total_timesteps ts' t_int sigs'
  end.

Definition power_shift_scheduler (model_sampling : ModelSampling) (steps : Z)
    (power midpoint_shift : float) (discard_penultimate : pyval)
    : result (list float) :=
  let total_timesteps := Z.of_nat (length (sigmas model_sampling)) - 1 in
  x ← shifted_positions steps midpoint_shift;
  let ts := ts_rounded (ts_normalized x power) total_timesteps in
  sigs ← collect_sigmas (sigmas model_sampling) total_timesteps ts (-1) [];
  let sigs := sigs ++ [0%float] in
  if is_True discard_penultimate
  then Ok (py_slice sigs None (Some (-2)) ++ py_slice sigs (Some (-1)) None)
  else Ok sigs.

(** ** The node method *)

(** [a / b] on Python floats. *)
Definition py_truediv (a b : float) : result float :=
  if (b =? 0)%float then Raise ZeroDivisionError else Ok (a / b)%float.

Definition get_sigmas (model : Model) (steps : Z) (power midpoint_shift : float)
    (discard_penultimate : pyval) (denoise : float) : result (tuple1 (list float)) :=
  total_steps ← (if (denoise <? 1)%float
                 then q ← py_truediv (float_of_Z steps) denoise; py_int q
                 else Ok steps);
  sigmas ← power_shift_scheduler (get_model_object model "model_sampling")
             total_steps power midpoint_shift discard_penultimate;
  Ok (Tuple1 (py_slice sigmas (Some (- (steps + 1))) None)).

End PowerShift.

(** A [pow] for running the model on examples: exact where the result is
    the same for every correct [pow] (exponent 1 is the identity) or is what
    numpy computes for a scalar exponent 2 (the square); NaN elsewhere. *)
Definition pow_sample (x p : float) : float :=
  if (p =? 1)%float then x
  else if (p =? 2)%float then (x * x)%float
  else nan.

Definition table5 : ModelSampling :=
  {| sigmas := [0.5; 1; 2; 4; 8]%float |}.

(** ** Registration into the host's scheduler tables *)

Record SchedulerHandler (H : Type) : Type :=
  { handler : H; use_ms : bool }.
Arguments handler {H} _.
Arguments use_ms {H} _.

(** The two module-level objects imported from [comfy.samplers]: the
    name-to-handler dict and the list of names. *)
Record Host (H : Type) : Type :=
  { SCHEDULER_HANDLERS : gmap string (SchedulerHandler H);
    SCHEDULER_NAMES : list string }.
Arguments SCHEDULER_HANDLERS {H} _.
Arguments SCHEDULER_NAMES {H} _.

Definition scheduler_name : string := "power_shift".

(** The statements run at import time, as a transformer of the host state:
    [name] is [scheduler_name] and [h] the generator. *)
Definition register {H : Type} (name : string) (h : H) (host : Host H) : Host H :=
  match SCHEDULER_HANDLERS host !! name with
  | Some _ => host
  | None =>
      let scheduler_handler := {| handler := h; use_ms := true |} in
      {| SCHEDULER_HANDLERS := <[name := scheduler_handler]> (SCHEDULER_HANDLERS host);
         SCHEDULER_NAMES :=
           if decide (name ∈ SCHEDULER_NAMES host) then SCHEDULER_NAMES host
           else SCHEDULER_NAMES host ++ [name] |}
  end.

(** ** Notions used by the statements *)

(** A timestep value on which [int(t)] succeeds with a non-negative result:
    a zero or a positive finite number. *)
Definition finite_nonneg (t : float) : bool :=
  match Prim2SF t with
  | S754_zero _ => true
  | S754_finite s _ _ => negb s
  | _ => false
  end.

(** The array [ts] that the loop of the generator walks. *)
Definition timesteps (pow : float -> float -> float) (model_sampling : ModelSampling)
    (steps : Z) (power midpoint_shift : float) : result (list float) :=
  x ← shifted_positions pow steps midpoint_shift;
  Ok (ts_rounded (ts_normalized pow x power)
        (Z.of_nat (length (sigmas model_sampling)) - 1)).

(** The numeric stage produced an array, and every entry of it is a
    finite non-negative number. *)
Definition timesteps_ok (pow : float -> float -> float) (model_sampling : ModelSampling)
    (steps : Z) (power midpoint_shift : float) : bool :=
  match timesteps pow model_sampling steps power midpoint_shift with
  | Ok ts => forallb finite_nonneg ts
  | Raise _ => false
  end.

(** The spec's wording of the discard step: the element at position
    [length - 2] is removed; a sequence too short to have one is kept. *)
Definition remove_second_to_last {A : Type} (l : list A) : list A :=
  if decide (2 <= length l)%nat then delete (length l - 2)%nat l else l.

(** The spec's wording of the truncation: the last [n] entries, or the
    whole sequence when it has no more than [n]. *)
Definition last_entries {A : Type} (n : nat) (l : list A) : list A :=
  if decide (length l <= n)%nat then l else drop (length l - n) l.

(** The number of times [name] occurs in a list of names. *)
Definition occurrences (name : string) (names : list string) : nat :=
  length (filter (fun n => n = name) names).

(** The host's two tables agree on [name]: the list holds it at most once,
    and holds it whenever the table has a handler under it.  A host that
    never had the name, and a host that builds its list from the keys of its
    table, both satisfy this. *)
Definition names_in_step {H : Type} (name : string) (host : Host H) : Prop :=
  (occurrences name (SCHEDULER_NAMES host) <= 1)%nat /\
  (is_Some (SCHEDULER_HANDLERS host !! name) -> name ∈ SCHEDULER_NAMES host).

(** The output of the generator once its loop has produced [sigs]: the
    trailing zero is appended, and for [True] the entry before it is cut. *)
Definition finish (d : pyval) (sigs : list float) : list float :=
  if is_True d then take (length sigs - 1) sigs ++ [0%float]
  else sigs ++ [0%float].

(** A host as it stands before this module is imported, with one scheduler
    of its own. *)
Definition generator : Type :=
  ModelSampling -> Z -> float -> float -> pyval -> result (list float).

Definition host_sample : Host generator :=
  {| SCHEDULER_HANDLERS :=
       {[ "simple" := {| handler := (fun _ _ _ _ _ => Ok []) : generator;
                         use_ms := true |} ]};
     SCHEDULER_NAMES := ["simple"] |}.

(** ** Notions used by the further properties *)

(** The indices [t_int] that the loop computes, one per timestep:
    [min(int(t), total_timesteps)]. *)
Definition t_ints (total_timesteps : Z) (ts : list float) : result (list Z) :=
  mapM (fun t => i ← py_int t; Ok (Z.min i total_timesteps)) ts.

(** An index list without its consecutive repeats: an entry equal to the
    one before it is dropped, [last_t] standing before the first. *)
Fixpoint drop_repeats (last_t : Z) (idx : list Z) : list Z :=
  match idx with
  | [] => []
  | i :: idx' =>
      if i =? last_t then drop_repeats i idx' else i :: drop_repeats i idx'
  end.


(** The host keeps its list of names in step with its table: no name
    twice, and exactly the keys of the table. *)
Definition host_consistent {H : Type} (host : Host H) : Prop :=
  NoDup (SCHEDULER_NAMES host) /\
  forall n, n ∈ SCHEDULER_NAMES host <-> is_Some (SCHEDULER_HANDLERS host !! n).

(** * Properties *)

(** ** The model on examples *)

Example rint_half : rint 0.5 = 0%float /\ rint 1.5 = 2%float /\ rint 2.5 = 2%float
  /\ rint 3.25 = 3%float /\ rint (-0.5) = (-0)%float.
Proof. repeat split; reflexivity. Qed.

Example py_int_ex : py_int 3.75 = Ok 3 /\ py_int (-3.75) = Ok (-3)
  /\ py_int nan = Raise ValueError /\ py_int infinity = Raise OverflowError
  /\ py_int 1e20 = Ok 100000000000000000000.
Proof. repeat split; reflexivity. Qed.

Example float_of_Z_ex : float_of_Z 20 = 20%float /\ float_of_Z (-3) = (-3)%float
  /\ float_of_Z 0 = 0%float.
Proof. repeat split; reflexivity. Qed.

Example py_slice_ex :
  py_slice [1; 2; 3; 4] None (Some (-2)) = [1; 2] /\
  py_slice [1; 2; 3; 4] (Some (-1)) None = [4] /\
  py_slice [1; 2; 3; 4] (Some (-3)) None = [2; 3; 4] /\
  py_slice [1; 2; 3; 4] (Some (-9)) None = [1; 2; 3; 4] /\
  py_slice [7] None (Some (-2)) = [] /\ py_slice [7] (Some (-1)) None = [7].
Proof. repeat split; reflexivity. Qed.

Example run_default :
  power_shift_scheduler pow_sample table5 3 2 1 (PyBool false)
  = Ok [8; 4; 1; 0]%float.
Proof. reflexivity. Qed.

(** Twelve steps on five sigmas: repeated indices are dropped. *)
Example run_dedup :
  timesteps pow_sample table5 12 2 1 = Ok [4; 4; 4; 4; 3; 3; 2; 2; 1; 1; 0; 0]%float /\
  power_shift_scheduler pow_sample table5 12 2 1 (PyBool false)
  = Ok [8; 4; 2; 1; 0.5; 0]%float /\
  power_shift_scheduler pow_sample table5 12 2 1 (PyBool true)
  = Ok [8; 4; 2; 1; 0]%float.
Proof. repeat split; reflexivity. Qed.

(** Half strength: six steps are generated and the last four entries kept. *)
Example run_get_sigmas :
  get_sigmas pow_sample {| get_model_object := fun _ => table5 |} 3 2 1 (PyBool false) 0.5
  = Ok (Tuple1 [2; 1; 0.5; 0]%float).
Proof. reflexivity. Qed.

(** ** Slices of a sequence that ends in a known element *)

Section Slices.
Context {A : Type}.
Implicit Types (l : list A) (a : A).

Lemma slice_last_one l a : py_slice (l ++ [a]) (Some (-1)) None = [a].
Proof.
  unfold py_slice, slice_bound; simpl from_option.
  rewrite length_app; simpl length.
  replace (Z.to_nat _) with (length l) by (simpl; lia).
  rewrite drop_app_length.
  replace (length l + 1 - length l)%nat with 1%nat by lia.
  reflexivity.
Qed.

Lemma slice_but_two l a :
  py_slice (l ++ [a]) None (Some (-2)) = take (length l - 1) l.
Proof.
  unfold py_slice, slice_bound; simpl from_option.
  rewrite length_app; simpl length.
  replace (Z.to_nat _) with (length l - 1)%nat by (simpl; lia).
  rewrite Nat.sub_0_r, drop_0.
  apply take_app_le; lia.
Qed.

Lemma slice_tail l (n : Z) :
  0 < n -> py_slice l (Some (- n)) None = last_entries (Z.to_nat n) l.
Proof.
  intros Hn. unfold py_slice, slice_bound, last_entries; simpl from_option.
  destruct (- n <? 0) eqn:E; [|lia].
  rewrite take_ge by (rewrite length_drop; lia).
  case_decide as Hle.
  - replace (Z.to_nat _) with 0%nat by lia. apply drop_0.
  - f_equal. lia.
Qed.

Lemma remove_second_to_last_snoc l a :
  remove_second_to_last (l ++ [a]) = take (length l - 1) l ++ [a].
Proof.
  unfold remove_second_to_last. rewrite length_app; simpl length.
  destruct l as [|b l _] using rev_ind.
  - reflexivity.
  - case_decide as Hle; [|rewrite length_app in Hle; simpl in Hle; lia].
    rewrite length_app; simpl length.
    replace (length l + 1 + 1 - 2)%nat with (length l) by lia.
    rewrite <- (assoc_L (++)). change ([b] ++ [a]) with (b :: [a]).
    rewrite delete_middle.
    replace (length l + 1 - 1)%nat with (length l) by lia.
    rewrite take_app_length. reflexivity.
Qed.

End Slices.

(** ** Conversions and indexing on values in range *)

Lemma py_int_finite_nonneg t :
  finite_nonneg t = true -> exists i, py_int t = Ok i /\ 0 <= i.
Proof.
  unfold finite_nonneg, py_int.
  destruct (Prim2SF t) as [s| s| |s m e]; try discriminate.
  - exists 0. split; [reflexivity | lia].
  - destruct s; [discriminate|]. intros _. eexists. split; [reflexivity|].
    destruct (0 <=? e) eqn:E.
    + apply Z.mul_nonneg_nonneg; [lia | apply Z.pow_nonneg; lia].
    + apply Z.div_pos; [lia | apply Z.pow_pos_nonneg; lia].
Qed.

Lemma tensor_index_in_range (l : list float) i :
  0 <= i < Z.of_nat (length l) -> exists s, tensor_index l i = Ok s.
Proof.
  intros Hi. unfold tensor_index.
  destruct (i <? 0) eqn:E; [lia|]. rewrite E.
  destruct (lookup_lt_is_Some_2 l (Z.to_nat i)) as [s Hs]; [lia|].
  exists s. rewrite Hs. reflexivity.
Qed.

(** ** The loop *)

Section Loop.
Variables (table : list float) (total_timesteps : Z).

(** The loop only appends, and at most one entry per timestep. *)
Lemma collect_sigmas_extends ts : forall last_t sigs out,
  collect_sigmas table total_timesteps ts last_t sigs = Ok out ->
  exists new, out = sigs ++ new /\ (length new <= length ts)%nat.
Proof.
  induction ts as [|t ts IH]; intros last_t sigs out; simpl.
  - intros [= <-]. exists []. rewrite app_nil_r. split; [reflexivity | simpl; lia].
  - destruct (py_int t) as [i|e]; simpl; [|discriminate].
    destruct (Z.min i total_timesteps =? last_t).
    + simpl. intros H. apply IH in H as (new & -> & Hlen).
      exists new. split; [reflexivity | lia].
    + destruct (tensor_index table (Z.min i total_timesteps)) as [s|e];
        simpl; [|discriminate].
      intros H. apply IH in H as (new & -> & Hlen).
      exists (s :: new). rewrite <- (assoc_L (++)). split; [reflexivity | simpl; lia].
Qed.

Hypothesis total_is_last : total_timesteps = Z.of_nat (length table) - 1.

(** On finite non-negative timesteps the loop raises nothing; started
    from [last_t = -1] on a non-empty table it appends at the first
    timestep. *)
Lemma collect_sigmas_returns ts :
  Forall (fun t => finite_nonneg t = true) ts ->
  forall last_t sigs,
  (total_timesteps = -1 -> last_t = -1) ->
  exists new,
    collect_sigmas table total_timesteps ts last_t sigs = Ok (sigs ++ new) /\
    (length new <= length ts)%nat /\
    (0 <= total_timesteps -> last_t = -1 -> ts <> [] -> (1 <= length new)%nat).
Proof.
  induction 1 as [|t ts Ht _ IH]; intros last_t sigs Hlast; simpl.
  - exists []. rewrite app_nil_r. repeat split; [simpl; lia | congruence].
  - destruct (py_int_finite_nonneg t Ht) as (i & -> & Hi); simpl.
    destruct (Z.min i total_timesteps =? last_t) eqn:E.
    + simpl. destruct (IH (Z.min i total_timesteps) sigs) as (new & -> & Hlen & _);
        [lia|].
      exists new. repeat split; [lia|]. intros Htot -> _. lia.
    + destruct (tensor_index_in_range table (Z.min i total_timesteps)) as [s ->].
      { destruct (decide (total_timesteps = -1)) as [Hm|Hm]; [|lia].
        specialize (Hlast Hm). lia. }
      simpl.
      destruct (IH (Z.min i total_timesteps) (sigs ++ [s])) as (new & -> & Hlen & _);
        [lia|].
      exists (s :: new). rewrite <- (assoc_L (++)).
      repeat split; simpl; lia.
Qed.

End Loop.

(** ** The generator as a whole *)

Section Generator.
Variable pow : float -> float -> float.
Implicit Types (ms : ModelSampling) (steps : Z) (power mid : float) (d : pyval).

Lemma power_shift_scheduler_eq ms steps power mid d :
  power_shift_scheduler pow ms steps power mid d =
  ts ← timesteps pow ms steps power mid;
  sigs ← collect_sigmas (sigmas ms) (Z.of_nat (length (sigmas ms)) - 1) ts (-1) [];
  Ok (finish d sigs).
Proof.
  unfold power_shift_scheduler, timesteps, finish.
  destruct (shifted_positions pow steps mid) as [x|e]; simpl; [|reflexivity].
  destruct (collect_sigmas _ _ _ _ _) as [sigs|e]; simpl; [|reflexivity].
  destruct (is_True d); [|reflexivity].
  rewrite slice_but_two, slice_last_one. reflexivity.
Qed.

Lemma timesteps_length ms steps power mid ts :
  timesteps pow ms steps power mid = Ok ts ->
  0 <= steps /\ length ts = Z.to_nat steps.
Proof.
  unfold timesteps, shifted_positions, linspace01.
  destruct (steps <? 0) eqn:E; simpl; [discriminate|].
  intros [= <-]. split; [lia|].
  unfold ts_rounded, ts_normalized, power_array.
  rewrite !length_fmap. apply length_seqZ.
Qed.

Lemma timesteps_ok_inv ms steps power mid :
  timesteps_ok pow ms steps power mid = true ->
  exists ts, timesteps pow ms steps power mid = Ok ts /\
             Forall (fun t => finite_nonneg t = true) ts.
Proof.
  unfold timesteps_ok.
  destruct (timesteps pow ms steps power mid) as [ts|e]; [|discriminate].
  intros H. exists ts. split; [reflexivity|].
  apply Forall_forall. intros t Ht. apply list_elem_of_In in Ht.
  eapply forallb_forall in H; eassumption.
Qed.

(** When the timesteps are finite and non-negative the generator returns,
    and the loop has kept between one and [steps] sigmas (none only when
    there is no timestep or no sigma at all). *)
Lemma power_shift_scheduler_returns ms steps power mid d :
  timesteps_ok pow ms steps power mid = true ->
  exists sigs,
    power_shift_scheduler pow ms steps power mid d = Ok (finish d sigs) /\
    Z.of_nat (length sigs) <= steps /\
    (sigmas ms <> [] -> 1 <= steps -> (1 <= length sigs)%nat).
Proof.
  intros Hok. destruct (timesteps_ok_inv _ _ _ _ Hok) as (ts & Hts & Hall).
  destruct (timesteps_length _ _ _ _ _ Hts) as [Hsteps Hlen].
  destruct (collect_sigmas_returns (sigmas ms) _ eq_refl ts Hall (-1) [])
    as (new & Hrun & Hle & Hge); [reflexivity|].
  exists new. rewrite power_shift_scheduler_eq, Hts; simpl.
  rewrite Hrun; simpl. repeat split; [lia|].
  intros Hne H1. apply Hge; [|reflexivity|].
  - destruct (sigmas ms); [congruence | simpl; lia].
  - intros ->. simpl in Hlen. lia.
Qed.

End Generator.

(** ** The trailing zero *)

(** C1. Whatever the sigma table, the step count, the two shape parameters
    and the discard argument, every sequence the generator returns ends in
    [0.0]; and it does return one whenever the rounded timesteps are finite
    and non-negative. *)
Theorem last_element_is_zero pow ms steps power mid d :
  (forall out, power_shift_scheduler pow ms steps power mid d = Ok out ->
               last out = Some 0%float) /\
  (timesteps_ok pow ms steps power mid = true ->
   exists out, power_shift_scheduler pow ms steps power mid d = Ok out).
Proof.
  split.
  - intros out. rewrite power_shift_scheduler_eq.
    destruct (timesteps pow ms steps power mid) as [ts|e]; simpl; [|discriminate].
    destruct (collect_sigmas _ _ _ _ _) as [sigs|e]; simpl; [|discriminate].
    intros [= <-]. unfold finish. destruct (is_True d); apply last_snoc.
  - intros Hok.
    destruct (power_shift_scheduler_returns pow ms steps power mid d Hok)
      as (sigs & Hrun & _).
    eauto.
Qed.

Lemma last_element_is_zero_witness :
  last [8; 4; 1; 0]%float = Some 0%float /\
  exists out, power_shift_scheduler pow_sample table5 3 2 1 (PyBool false) = Ok out.
Proof.
  split.
  - apply (proj1 (last_element_is_zero pow_sample table5 3 2 1 (PyBool false))).
    reflexivity.
  - apply (proj2 (last_element_is_zero pow_sample table5 3 2 1 (PyBool false))).
    reflexivity.
Defined.

(** ** The length of the output *)

(** C2, as stated, fails: with [power = 0] every index is the last one, the
    loop keeps a single sigma, and discarding it leaves [[0.0]] alone. *)
Lemma output_length_below_two :
  power_shift_scheduler pow_sample table5 3 0 1 (PyBool true) = Ok [0%float] /\
  ~ (2 <= length [0%float])%nat.
Proof. split; [reflexivity | simpl; lia]. Qed.

(** C2, amended. On a non-empty table, with [steps >= 1] and finite
    non-negative rounded timesteps, the generator returns a sequence of
    length between 2 and [steps + 1] when the discard argument is not
    [True], and between 1 and [steps] when it is. *)
Theorem output_length_bounds pow ms steps power mid d :
  sigmas ms <> [] -> 1 <= steps ->
  timesteps_ok pow ms steps power mid = true ->
  exists out,
    power_shift_scheduler pow ms steps power mid d = Ok out /\
    if is_True d then 1 <= Z.of_nat (length out) <= steps
    else 2 <= Z.of_nat (length out) <= steps + 1.
Proof.
  intros Hne Hsteps Hok.
  destruct (power_shift_scheduler_returns pow ms steps power mid d Hok)
    as (sigs & Hrun & Hle & Hge).
  specialize (Hge Hne Hsteps).
  exists (finish d sigs). split; [exact Hrun|].
  unfold finish. destruct (is_True d);
    rewrite length_app, ?length_take; simpl; lia.
Qed.

Lemma output_length_bounds_witness :
  exists out,
    power_shift_scheduler pow_sample table5 3 2 1 (PyBool true) = Ok out /\
    1 <= Z.of_nat (length out) <= 3.
Proof.
  apply (output_length_bounds pow_sample table5 3 2 1 (PyBool true)).
  - discriminate.
  - lia.
  - reflexivity.
Defined.

(** ** The discard step *)

(** C3. For every table, step count and shape parameters, the output with
    [discard_penultimate=True] is the output with [False] with its
    second-to-last element removed (and the same exception when the latter
    raises). *)
Theorem discard_removes_second_to_last pow ms steps power mid :
  power_shift_scheduler pow ms steps power mid (PyBool true) =
  remove_second_to_last <$> power_shift_scheduler pow ms steps power mid (PyBool false).
Proof.
  rewrite !power_shift_scheduler_eq.
  destruct (timesteps pow ms steps power mid) as [ts|e]; simpl; [|reflexivity].
  destruct (collect_sigmas _ _ _ _ _) as [sigs|e]; simpl; [|reflexivity].
  unfold finish; simpl. rewrite remove_second_to_last_snoc. reflexivity.
Qed.

(** C10. The penultimate element is removed only for the boolean [True]
    itself: any other argument, truthy ones such as the integer 1 included,
    gives the output of [discard_penultimate=False]. *)
Theorem discard_needs_exact_True pow ms steps power mid d :
  d <> PyBool true ->
  power_shift_scheduler pow ms steps power mid d =
  power_shift_scheduler pow ms steps power mid (PyBool false).
Proof.
  intros Hd. unfold power_shift_scheduler.
  replace (is_True d) with false; [reflexivity|].
  destruct d as [|[]| | |]; try reflexivity. congruence.
Qed.

Lemma discard_needs_exact_True_witness :
  truthy (PyInt 1) = true /\
  power_shift_scheduler pow_sample table5 3 2 1 (PyInt 1) =
  power_shift_scheduler pow_sample table5 3 2 1 (PyBool false).
Proof.
  split; [reflexivity|].
  apply (discard_needs_exact_True pow_sample table5 3 2 1 (PyInt 1)).
  discriminate.
Defined.

(** ** The degenerate curve at [power = 0] *)

(** C4, as stated, fails: at [power = 0] the normalized timestep of a
    positive position is 1, not 0. *)
Lemma normalized_not_zero_at_power_zero :
  ts_normalized pow_sample [0.5%float] 0 = [1%float] /\
  ts_normalized pow_sample [0.5%float] 0 <> [0%float].
Proof.
  split; [reflexivity|].
  intros H.
  apply (f_equal (fun l => match l with [v] => (v =? 1)%float | _ => false end)) in H.
  discriminate H.
Qed.

(** C4, amended. When [power = 0], [x ** power] is 1 at every position,
    zero or not, so [1 - x ** power] is 0 everywhere and
    [ts_normalized = 0 ** 0] is 1 everywhere. *)
Theorem normalized_at_power_zero pow (x : list float) :
  power_array pow x 0 = (fun _ => 1%float) <$> x /\
  (fun v => (1 - v)%float) <$> power_array pow x 0 = (fun _ => 0%float) <$> x /\
  ts_normalized pow x 0 = (fun _ => 1%float) <$> x.
Proof.
  assert (H1 : power_array pow x 0 = (fun _ => 1%float) <$> x) by reflexivity.
  assert (H2 : (fun v => (1 - v)%float) <$> power_array pow x 0
               = (fun _ => 0%float) <$> x).
  { rewrite H1, <- list_fmap_compose. reflexivity. }
  repeat split; try assumption.
  unfold ts_normalized. rewrite H2.
  unfold power_array. rewrite <- list_fmap_compose. reflexivity.
Qed.

(** ** The node method *)

(** C6 fails on the code at [denoise = 0], an accepted value of the node's
    own input declaration: the division [steps / denoise] raises. *)
Theorem get_sigmas_denoise_zero pow model steps power mid d :
  get_sigmas pow model steps power mid d 0 = Raise ZeroDivisionError.
Proof. reflexivity. Qed.

(** C7. With [steps = 10] and [denoise = 0.5] the node runs the generator
    at 20 steps and returns the last 11 entries of what it produced, or all
    of it when it has no more than 11 (and raises what the generator
    raises). *)
Theorem get_sigmas_truncation pow model power mid d :
  get_sigmas pow model 10 power mid d 0.5 =
  (fun out => Tuple1 (last_entries 11 out)) <$>
    power_shift_scheduler pow (get_model_object model "model_sampling") 20 power mid d.
Proof.
  unfold get_sigmas.
  change (total_steps ← (if (0.5 <? 1)%float
                         then q ← py_truediv (float_of_Z 10) 0.5; py_int q
                         else Ok 10); _)
    with (total_steps ← Ok 20; 
          sigmas ← power_shift_scheduler pow (get_model_object model "model_sampling")
                     total_steps power mid d;
          Ok (Tuple1 (py_slice sigmas (Some (- (10 + 1))) None))).
  simpl.
  destruct (power_shift_scheduler _ _ _ _ _ _) as [out|e]; simpl; [|reflexivity].
  do 2 f_equal. apply (slice_tail out 11). lia.
Qed.

(** ** A table with a single sigma *)






(** ** Registration *)

Section Registration.
Context {H : Type}.
Implicit Types (name : string) (h : H) (host : Host H).

Lemma register_registered name h host :
  is_Some (SCHEDULER_HANDLERS (register name h host) !! name).
Proof.
  unfold register.
  destruct (SCHEDULER_HANDLERS host !! name) as [sh|] eqn:E; simpl.
  - rewrite E. eauto.
  - rewrite lookup_insert_eq. eauto.
Qed.

(** Running the registration on a host that has the name is a no-op. *)
Lemma register_idempotent name h host :
  register name h (register name h host) = register name h host.
Proof.
  destruct (register_registered name h host) as [sh Hsh].
  unfold register at 1. rewrite Hsh. reflexivity.
Qed.

Lemma occurrences_app name (l1 l2 : list string) :
  occurrences name (l1 ++ l2) = (occurrences name l1 + occurrences name l2)%nat.
Proof. unfold occurrences. rewrite filter_app, length_app. reflexivity. Qed.

Lemma occurrences_absent name (l : list string) :
  name ∉ l -> occurrences name l = 0%nat.
Proof.
  unfold occurrences. induction l as [|n l IH]; intros Hn; [reflexivity|].
  apply not_elem_of_cons in Hn as [Hne Hn].
  rewrite filter_cons_False by congruence. auto.
Qed.

Lemma occurrences_present name (l : list string) :
  name ∈ l -> (1 <= occurrences name l)%nat.
Proof.
  unfold occurrences. induction l as [|n l IH]; intros Hin.
  - apply elem_of_nil in Hin as [].
  - destruct (decide (n = name)) as [Heq|Hne].
    + rewrite filter_cons_True by assumption. simpl. lia.
    + rewrite filter_cons_False by assumption.
      apply IH. apply elem_of_cons in Hin as [?|?]; [congruence | assumption].
Qed.

(** The name list after one registration. *)
Lemma register_occurrences name h host :
  names_in_step name host ->
  occurrences name (SCHEDULER_NAMES (register name h host)) = 1%nat.
Proof.
  intros [Hle Hin]. unfold register.
  destruct (SCHEDULER_HANDLERS host !! name) as [sh|] eqn:E; simpl.
  - pose proof (occurrences_present name _ (Hin (mk_is_Some _ _ eq_refl))). lia.
  - case_decide as Hn.
    + pose proof (occurrences_present name _ Hn). lia.
    + rewrite occurrences_app, (occurrences_absent name _ Hn).
      unfold occurrences. rewrite filter_cons_True by reflexivity. reflexivity.
Qed.

End Registration.

(** C9. On a host that lists ["power_shift"] at most once, and lists it if
    its table has that key, running the registration twice is the same as
    running it once; the table then has its (single) entry under the key and
    the name list holds ["power_shift"] exactly once. *)
Theorem registration_idempotent {H : Type} (h : H) (host : Host H) :
  names_in_step scheduler_name host ->
  let once := register scheduler_name h host in
  let twice := register scheduler_name h once in
  twice = once /\
  is_Some (SCHEDULER_HANDLERS twice !! scheduler_name) /\
  occurrences scheduler_name (SCHEDULER_NAMES twice) = 1%nat.
Proof.
  intros Hstep once twice.
  assert (Heq : twice = once) by apply register_idempotent.
  rewrite Heq. split; [reflexivity|].
  split; [apply register_registered | apply register_occurrences, Hstep].
Qed.

Lemma registration_idempotent_witness :
  occurrences scheduler_name
    (SCHEDULER_NAMES
       (register scheduler_name (power_shift_scheduler pow_sample)
          (register scheduler_name (power_shift_scheduler pow_sample) host_sample)))
  = 1%nat.
Proof.
  apply (registration_idempotent (power_shift_scheduler pow_sample) host_sample).
  split.
  - vm_compute. lia.
  - intros [sh Hsh]. vm_compute in Hsh. discriminate Hsh.
Defined.

(** * Further properties of the generator *)

(** ** The shape of every returned sequence *)

Lemma tensor_index_elem (l : list float) i s :
  tensor_index l i = Ok s -> s ∈ l.
Proof.
  unfold tensor_index.
  destruct (_ <? 0); [discriminate|].
  destruct (l !! _) as [v|] eqn:E; simpl; [|discriminate].
  intros [= <-]. eapply list_elem_of_lookup_2, E.
Qed.

Lemma collect_sigmas_from_table table total ts : forall last_t sigs out,
  collect_sigmas table total ts last_t sigs = Ok out ->
  exists new, out = sigs ++ new /\ (length new <= length ts)%nat /\
              Forall (fun v => v ∈ table) new.
Proof.
  induction ts as [|t ts IH]; intros last_t sigs out; simpl.
  - intros [= <-]. exists []. rewrite app_nil_r. repeat split; [simpl; lia | constructor].
  - destruct (py_int t) as [i|e]; simpl; [|discriminate].
    destruct (Z.min i total =? last_t).
    + simpl. intros H. apply IH in H as (new & -> & Hlen & Hall).
      exists new. repeat split; [lia | assumption].
    + destruct (tensor_index table (Z.min i total)) as [s|e] eqn:E;
        simpl; [|discriminate].
      intros H. apply IH in H as (new & -> & Hlen & Hall).
      exists (s :: new). rewrite <- (assoc_L (++)).
      repeat split; [simpl; lia|].
      constructor; [eapply tensor_index_elem, E | assumption].
Qed.

Lemma power_shift_scheduler_shape pow ms steps power mid d out :
  power_shift_scheduler pow ms steps power mid d = Ok out ->
  exists kept,
    out = kept ++ [0%float] /\
    0 <= steps /\ Z.of_nat (length kept) <= steps /\
    Forall (fun v => v ∈ sigmas ms) kept.
Proof.
  rewrite power_shift_scheduler_eq.
  destruct (timesteps pow ms steps power mid) as [ts|e] eqn:Hts; simpl; [|discriminate].
  destruct (timesteps_length _ _ _ _ _ _ Hts) as [Hsteps Hlen].
  destruct (collect_sigmas _ _ _ _ _) as [sigs|e] eqn:Hrun; simpl; [|discriminate].
  apply collect_sigmas_from_table in Hrun as (new & -> & Hle & Hall).
  simpl. intros [= <-]. unfold finish. destruct (is_True d).
  - exists (take (length new - 1) new). repeat split; [assumption| |].
    + rewrite length_take. lia.
    + apply Forall_take, Hall.
  - exists new. repeat split; [assumption | lia | assumption].
Qed.



(** ** Step counts below one *)

(** X2. A negative step count makes the generator raise [ValueError]
    (from [numpy.linspace]), and a step count of zero makes it return
    [[0.0]] alone, whatever the table, the shape parameters and the discard
    argument. *)
Theorem steps_below_one pow ms steps power mid d :
  (steps < 0 -> power_shift_scheduler pow ms steps power mid d = Raise ValueError) /\
  (steps = 0 -> power_shift_scheduler pow ms steps power mid d = Ok [0%float]).
Proof.
  split.
  - intros Hneg. unfold power_shift_scheduler, shifted_positions, linspace01.
    destruct (steps <? 0) eqn:E; [reflexivity | lia].
  - intros ->. unfold power_shift_scheduler. simpl.
    destruct (is_True d); reflexivity.
Qed.

Lemma steps_below_one_witness :
  power_shift_scheduler pow_sample table5 (-1) 2 1 (PyBool false) = Raise ValueError /\
  power_shift_scheduler pow_sample table5 0 2 1 (PyBool true) = Ok [0%float].
Proof.
  split.
  - apply (proj1 (steps_below_one pow_sample table5 (-1) 2 1 (PyBool false))). lia.
  - apply (proj2 (steps_below_one pow_sample table5 0 2 1 (PyBool true))). reflexivity.
Defined.

(** ** An empty sigma table *)

Lemma collect_sigmas_empty_table total ts : forall last_t sigs out,
  collect_sigmas [] total ts last_t sigs = Ok out -> out = sigs.
Proof.
  induction ts as [|t ts IH]; intros last_t sigs out; simpl.
  - congruence.
  - destruct (py_int t) as [i|e]; simpl; [|discriminate].
    destruct (Z.min i total =? last_t); simpl; [apply IH|].
    unfold tensor_index. simpl.
    destruct (_ <? 0); discriminate.
Qed.

(** X3. On an empty sigma table the generator does not fail fast: a run
    that never has to read the table returns, and what it returns is
    [[0.0]] alone. *)
Theorem empty_table_output pow ms steps power mid d out :
  sigmas ms = [] ->
  power_shift_scheduler pow ms steps power mid d = Ok out ->
  out = [0%float].
Proof.
  intros Hnil. rewrite power_shift_scheduler_eq, Hnil.
  destruct (timesteps pow ms steps power mid) as [ts|e]; simpl; [|discriminate].
  destruct (collect_sigmas _ _ _ _ _) as [sigs|e] eqn:Hrun; simpl; [|discriminate].
  apply collect_sigmas_empty_table in Hrun as ->.
  intros [= <-]. unfold finish. destruct (is_True d); reflexivity.
Qed.

Lemma empty_table_output_witness :
  power_shift_scheduler pow_sample {| sigmas := [] |} 3 2 1 (PyBool false)
  = Ok [0%float] /\
  [0%float] = [0%float].
Proof.
  split; [reflexivity|].
  apply (empty_table_output pow_sample {| sigmas := [] |} 3 2 1 (PyBool false));
    reflexivity.
Defined.

(** ** Deduplication by index *)



Lemma collect_sigmas_dedup table total ts : forall idx last_t sigs,
  t_ints total ts = Ok idx ->
  collect_sigmas table total ts last_t sigs =
  (fun new => sigs ++ new) <$> mapM (tensor_index table) (drop_repeats last_t idx).
Proof.
  unfold t_ints.
  induction ts as [|t ts IH]; intros idx last_t sigs; simpl.
  - intros [= <-]. simpl. rewrite app_nil_r. reflexivity.
  - destruct (py_int t) as [i|e]; simpl; [|discriminate].
    destruct (mapM _ ts) as [idx'|e] eqn:Hidx; simpl; [|discriminate].
    intros [= <-]. simpl. destruct (Z.min i total =? last_t); simpl.
    + apply IH. reflexivity.
    + destruct (tensor_index table (Z.min i total)) as [s|e]; simpl; [|reflexivity].
      rewrite (IH idx' _ _ eq_refl).
      destruct (mapM (tensor_index table) _) as [new|e]; simpl; [|reflexivity].
      rewrite <- (assoc_L (++)). reflexivity.
Qed.



(** ** Indices that never go up *)

Lemma t_ints_bounded total ts : forall idx,
  t_ints total ts = Ok idx -> Forall (fun i => i <= total) idx.
Proof.
  unfold t_ints. induction ts as [|t ts IH]; intros idx; simpl.
  - intros [= <-]. constructor.
  - destruct (py_int t) as [i|e]; simpl; [|discriminate].
    destruct (mapM _ ts) as [idx'|e]; simpl; [|discriminate].
    intros [= <-]. constructor; [lia | apply IH; reflexivity].
Qed.





(** ** Reads outside the table *)

Lemma drop_repeats_Forall (P : Z -> Prop) idx : forall last_t,
  Forall P idx -> Forall P (drop_repeats last_t idx).
Proof.
  induction idx as [|a idx IH]; intros last_t Hall; simpl; [constructor|].
  apply Forall_cons in Hall as [Ha Hall].
  destruct (a =? last_t); [apply IH, Hall | constructor; [exact Ha | apply IH, Hall]].
Qed.

Lemma tensor_index_below (l : list float) i :
  i < - Z.of_nat (length l) -> tensor_index l i = Raise IndexError.
Proof.
  intros Hi. unfold tensor_index.
  destruct (i <? 0) eqn:E; [|lia].
  destruct (i + Z.of_nat (length l) <? 0) eqn:E'; [reflexivity | lia].
Qed.

Lemma tensor_index_wraps (l : list float) i :
  - Z.of_nat (length l) <= i < Z.of_nat (length l) ->
  exists v, tensor_index l i = Ok v.
Proof.
  intros Hi. unfold tensor_index.
  destruct (i <? 0) eqn:E.
  - destruct (i + Z.of_nat (length l) <? 0) eqn:E'; [lia|].
    destruct (lookup_lt_is_Some_2 l (Z.to_nat (i + Z.of_nat (length l)))) as [v Hv];
      [lia|].
    exists v. rewrite Hv. reflexivity.
  - rewrite E. destruct (lookup_lt_is_Some_2 l (Z.to_nat i)) as [v Hv]; [lia|].
    exists v. rewrite Hv. reflexivity.
Qed.

Lemma read_all_or_index_error (l : list float) js :
  Forall (fun i => i < Z.of_nat (length l)) js ->
  (Forall (fun i => - Z.of_nat (length l) <= i) js ->
   exists out, mapM (tensor_index l) js = Ok out) /\
  (Exists (fun i => i < - Z.of_nat (length l)) js ->
   mapM (tensor_index l) js = Raise IndexError).
Proof.
  induction 1 as [|j js Hj _ [IHok IHerr]]; split.
  - intros _. exists []. reflexivity.
  - intros Hex. apply Exists_nil in Hex as [].
  - intros Hall. apply Forall_cons in Hall as [Hlow Hall].
    destruct (tensor_index_wraps l j) as [v Hv]; [lia|].
    destruct (IHok Hall) as [out Hout].
    exists (v :: out). simpl. rewrite Hv. simpl. rewrite Hout. reflexivity.
  - intros Hex. simpl.
    destruct (decide (j < - Z.of_nat (length l))) as [Hlow|Hlow].
    + rewrite tensor_index_below by assumption. reflexivity.
    + destruct (tensor_index_wraps l j) as [v Hv]; [lia|].
      rewrite Hv. simpl.
      apply Exists_cons in Hex as [Hbad|Hex]; [contradiction|].
      rewrite (IHerr Hex). reflexivity.
Qed.

(** X12. Once [int(t)] has succeeded on every timestep, the only failure
    left is a read below the table: the clamp to [total_timesteps] rules
    out reads past its end, an index down to [-len] wraps around, and the
    generator raises [IndexError] exactly when an index it reads is below
    [-len]. *)
Theorem reads_stay_in_table pow ms steps power mid d ts idx :
  timesteps pow ms steps power mid = Ok ts ->
  t_ints (Z.of_nat (length (sigmas ms)) - 1) ts = Ok idx ->
  Forall (fun i => i < Z.of_nat (length (sigmas ms))) idx /\
  (Forall (fun i => - Z.of_nat (length (sigmas ms)) <= i) (drop_repeats (-1) idx) ->
   exists out, power_shift_scheduler pow ms steps power mid d = Ok out) /\
  (Exists (fun i => i < - Z.of_nat (length (sigmas ms))) (drop_repeats (-1) idx) ->
   power_shift_scheduler pow ms steps power mid d = Raise IndexError).
Proof.
  intros Hts Hidx.
  assert (Hmax : Forall (fun i => i < Z.of_nat (length (sigmas ms))) idx).
  { eapply Forall_impl; [apply (t_ints_bounded _ _ _ Hidx)|]. simpl. intros i Hi. lia. }
  split; [exact Hmax|].
  destruct (read_all_or_index_error (sigmas ms) (drop_repeats (-1) idx)
              (drop_repeats_Forall _ _ _ Hmax)) as [Hok Herr].
  rewrite power_shift_scheduler_eq, Hts; simpl.
  rewrite (collect_sigmas_dedup _ _ _ idx) by assumption.
  split.
  - intros Hall. destruct (Hok Hall) as [out ->]. simpl. eauto.
  - intros Hex. rewrite (Herr Hex). reflexivity.
Qed.

Lemma reads_stay_in_table_witness :
  exists out, power_shift_scheduler pow_sample table5 3 2 1 (PyBool false) = Ok out.
Proof.
  apply (reads_stay_in_table pow_sample table5 3 2 1 (PyBool false)
           [4; 3; 1]%float [4; 3; 1]); [reflexivity | reflexivity |].
  repeat (constructor; [simpl; lia|]). constructor.
Defined.

(** * Further properties of the node method *)

Lemma last_entries_suffix {A : Type} (n : nat) (l : list A) :
  last_entries n l `suffix_of` l /\ length (last_entries n l) = Nat.min n (length l).
Proof.
  unfold last_entries. case_decide as Hle.
  - split; [reflexivity | lia].
  - split; [apply suffix_drop | rewrite length_drop; lia].
Qed.

(** X5. At full strength, that is for every [denoise] that is not below
    1.0 (NaN included), the node runs the generator at [steps] and returns
    its sequence whole: the slice to the last [steps + 1] entries removes
    nothing. *)
Theorem get_sigmas_full_strength pow model steps power mid d denoise :
  (denoise <? 1)%float = false ->
  get_sigmas pow model steps power mid d denoise =
  Tuple1 <$> power_shift_scheduler pow (get_model_object model "model_sampling")
               steps power mid d.
Proof.
  intros Hfull. unfold get_sigmas. rewrite Hfull. simpl.
  destruct (power_shift_scheduler _ _ _ _ _ _) as [out|e] eqn:Hrun; simpl; [|reflexivity].
  apply power_shift_scheduler_shape in Hrun as (kept & -> & Hsteps & Hlen & _).
  do 2 f_equal. rewrite slice_tail by lia.
  unfold last_entries. case_decide as Hle; [reflexivity|].
  rewrite length_app in Hle. simpl in Hle. lia.
Qed.

Lemma get_sigmas_full_strength_witness :
  get_sigmas pow_sample {| get_model_object := fun _ => table5 |} 3 2 1 (PyBool false) 1 =
  Tuple1 <$> power_shift_scheduler pow_sample table5 3 2 1 (PyBool false).
Proof.
  apply (get_sigmas_full_strength pow_sample {| get_model_object := fun _ => table5 |}
           3 2 1 (PyBool false) 1).
  reflexivity.
Defined.

(** X6. For a step count that is not negative, what the node returns is
    the tail of a sequence of the generator: it still ends in [0.0] and has
    between 1 and [steps + 1] entries. *)
Theorem get_sigmas_keeps_tail pow model steps power mid d denoise out :
  0 <= steps ->
  get_sigmas pow model steps power mid d denoise = Ok (Tuple1 out) ->
  (exists total_steps gen,
     power_shift_scheduler pow (get_model_object model "model_sampling")
       total_steps power mid d = Ok gen /\ out `suffix_of` gen) /\
  last out = Some 0%float /\
  1 <= Z.of_nat (length out) <= steps + 1.
Proof.
  intros Hsteps. unfold get_sigmas.
  destruct (if (denoise <? 1)%float then _ else _) as [total_steps|e];
    simpl; [|discriminate].
  destruct (power_shift_scheduler _ _ _ _ _ _) as [gen|e] eqn:Hrun; simpl; [|discriminate].
  intros [= <-]. rewrite slice_tail by lia.
  destruct (last_entries_suffix (Z.to_nat (steps + 1)) gen) as [Hsuf Hlen].
  split; [eauto|].
  apply power_shift_scheduler_shape in Hrun as (kept & -> & _).
  rewrite length_app in Hlen. simpl in Hlen.
  destruct Hsuf as [front Hfront].
  destruct (last_entries _ _) as [|v rest _] using rev_ind; [simpl in Hlen; lia|].
  rewrite (assoc_L (++)) in Hfront. apply app_inj_tail in Hfront as [_ <-].
  split; [apply last_snoc|].
  rewrite length_app in *. simpl in *. lia.
Qed.

Lemma get_sigmas_keeps_tail_witness :
  last [2; 1; 0.5; 0]%float = Some 0%float /\
  1 <= Z.of_nat (length [2; 1; 0.5; 0]%float) <= 3 + 1.
Proof.
  apply (get_sigmas_keeps_tail pow_sample {| get_model_object := fun _ => table5 |}
           3 2 1 (PyBool false) 0.5 [2; 1; 0.5; 0]%float).
  - lia.
  - reflexivity.
Defined.

(** X13. For a step count that is not negative and a [denoise] below 1.0
    that is not a zero, the node runs the generator at
    [int(steps / denoise)] steps and returns the last [steps + 1] entries
    of its sequence, or all of it when it has no more. *)
Theorem get_sigmas_partial_strength pow model steps power mid d denoise :
  0 <= steps ->
  (denoise <? 1)%float = true -> (denoise =? 0)%float = false ->
  get_sigmas pow model steps power mid d denoise =
  total_steps ← py_int (float_of_Z steps / denoise);
  (fun out => Tuple1 (last_entries (Z.to_nat (steps + 1)) out)) <$>
    power_shift_scheduler pow (get_model_object model "model_sampling")
      total_steps power mid d.
Proof.
  intros Hsteps Hlt Hnz. unfold get_sigmas, py_truediv. rewrite Hlt, Hnz. simpl.
  destruct (py_int _) as [n|e]; simpl; [|reflexivity].
  destruct (power_shift_scheduler _ _ _ _ _ _) as [out|e]; simpl; [|reflexivity].
  rewrite slice_tail by lia. reflexivity.
Qed.

Lemma get_sigmas_partial_strength_witness :
  get_sigmas pow_sample {| get_model_object := fun _ => table5 |} 3 2 1 (PyBool false) 0.5 =
  total_steps ← py_int (float_of_Z 3 / 0.5);
  (fun out => Tuple1 (last_entries (Z.to_nat (3 + 1)) out)) <$>
    power_shift_scheduler pow_sample table5 total_steps 2 1 (PyBool false).
Proof.
  apply (get_sigmas_partial_strength pow_sample
           {| get_model_object := fun _ => table5 |} 3 2 1 (PyBool false) 0.5).
  - lia.
  - reflexivity.
  - reflexivity.
Defined.

(** ** Where the division by zero comes from *)

Lemma py_int_no_zero_division t : py_int t <> Raise ZeroDivisionError.
Proof. unfold py_int. destruct (Prim2SF t) as [| | |[] ? ?]; discriminate. Qed.

Lemma tensor_index_no_zero_division l i : tensor_index l i <> Raise ZeroDivisionError.
Proof.
  unfold tensor_index. destruct (_ <? 0); [discriminate|].
  destruct (l !! _); discriminate.
Qed.

Lemma collect_sigmas_no_zero_division table total ts : forall last_t sigs,
  collect_sigmas table total ts last_t sigs <> Raise ZeroDivisionError.
Proof.
  induction ts as [|t ts IH]; intros last_t sigs; simpl; [discriminate|].
  pose proof (py_int_no_zero_division t) as Hint.
  destruct (py_int t) as [i|e]; simpl; [|congruence].
  destruct (Z.min i total =? last_t); simpl; [apply IH|].
  pose proof (tensor_index_no_zero_division table (Z.min i total)) as Hidx.
  destruct (tensor_index table (Z.min i total)) as [s|e]; simpl; [apply IH | congruence].
Qed.

Lemma power_shift_scheduler_no_zero_division pow ms steps power mid d :
  power_shift_scheduler pow ms steps power mid d <> Raise ZeroDivisionError.
Proof.
  rewrite power_shift_scheduler_eq.
  unfold timesteps, shifted_positions, linspace01.
  destruct (steps <? 0); simpl; [discriminate|].
  pose proof (collect_sigmas_no_zero_division (sigmas ms)
                (Z.of_nat (length (sigmas ms)) - 1)) as Hrun.
  match goal with |- context [collect_sigmas ?a ?b ?c ?l ?s] =>
    specialize (Hrun c l s); destruct (collect_sigmas a b c l s) end;
    simpl; congruence.
Qed.

(** A float equal to zero (either zero) is below one. *)
Lemma zero_below_one (f : float) : (f =? 0)%float = true -> (f <? 1)%float = true.
Proof.
  rewrite FloatAxioms.eqb_spec, FloatAxioms.ltb_spec.
  change (Prim2SF 0) with (S754_zero false).
  destruct (Prim2SF f) as [s|[]| |[] m e]; cbn; intros Hz;
    try discriminate Hz; reflexivity.
Qed.

(** X7. The node raises [ZeroDivisionError] exactly when [denoise] is a
    zero: the division [steps / denoise] is the only place it can come
    from, and a zero [denoise] always reaches it. *)
Theorem get_sigmas_zero_division pow model steps power mid d denoise :
  get_sigmas pow model steps power mid d denoise = Raise ZeroDivisionError <->
  (denoise =? 0)%float = true.
Proof.
  unfold get_sigmas, py_truediv. split.
  - destruct (denoise =? 0)%float; [reflexivity|].
    intros Hraise. exfalso. revert Hraise.
    destruct (denoise <? 1)%float; simpl.
    + pose proof (py_int_no_zero_division (float_of_Z steps / denoise)) as Hint.
      destruct (py_int _) as [n|e]; simpl; [|congruence].
      pose proof (power_shift_scheduler_no_zero_division pow
                    (get_model_object model "model_sampling") n power mid d) as Hrun.
      destruct (power_shift_scheduler _ _ _ _ _ _); simpl; congruence.
    + pose proof (power_shift_scheduler_no_zero_division pow
                    (get_model_object model "model_sampling") steps power mid d) as Hrun.
      destruct (power_shift_scheduler _ _ _ _ _ _); simpl; congruence.
  - intros Hzero. rewrite (zero_below_one _ Hzero), Hzero. reflexivity.
Qed.

(** * Further properties of the registration *)

Section RegistrationFrame.
Context {H : Type}.
Implicit Types (name : string) (h : H) (host : Host H).

(** X8. The registration keeps the host's invariant: if the name list is
    duplicate-free and lists exactly the keys of the handler table before,
    it does so after. *)
Theorem register_consistent name h host :
  host_consistent host -> host_consistent (register name h host).
Proof.
  intros [Hnd Hkeys]. unfold register.
  destruct (SCHEDULER_HANDLERS host !! name) as [sh|] eqn:E; [split; assumption|].
  assert (Hout : name ∉ SCHEDULER_NAMES host).
  { intros Hin. apply Hkeys in Hin as [sh Hsh]. congruence. }
  split; simpl; case_decide; try contradiction.
  - apply NoDup_app. repeat split; [assumption | | apply NoDup_singleton].
    intros n Hn Hn'. apply list_elem_of_singleton in Hn' as ->. contradiction.
  - intros n. rewrite elem_of_app, list_elem_of_singleton, lookup_insert_is_Some, Hkeys.
    destruct (decide (name = n)) as [->|Hne]; [tauto|].
    split; [intros [?|?]; [tauto | congruence] | tauto].
Qed.

(** X9. The registration never drops or replaces anything: every handler
    of the table is still there, unchanged, the one already under the name
    included, and the earlier name list is a prefix of the new one. *)
Theorem register_keeps_existing name h host :
  (forall n sh, SCHEDULER_HANDLERS host !! n = Some sh ->
                SCHEDULER_HANDLERS (register name h host) !! n = Some sh) /\
  SCHEDULER_NAMES host `prefix_of` SCHEDULER_NAMES (register name h host).
Proof.
  unfold register.
  destruct (SCHEDULER_HANDLERS host !! name) as [sh0|] eqn:E; simpl.
  - split; [auto | reflexivity].
  - split.
    + intros n sh Hn. rewrite lookup_insert_ne; [assumption | congruence].
    + case_decide; [reflexivity | apply prefix_app_r; reflexivity].
Qed.

(** X10. The registration touches one name only: under it the table holds
    the handler that was there or, when there was none, the new handler
    with [use_ms] set; every other key reads as before, and no other name
    enters the list. *)
Theorem register_only_name name h host :
  SCHEDULER_HANDLERS (register name h host) !! name =
    Some (default {| handler := h; use_ms := true |}
            (SCHEDULER_HANDLERS host !! name)) /\
  forall n, n <> name ->
    SCHEDULER_HANDLERS (register name h host) !! n = SCHEDULER_HANDLERS host !! n /\
    (n ∈ SCHEDULER_NAMES (register name h host) <-> n ∈ SCHEDULER_NAMES host).
Proof.
  unfold register.
  destruct (SCHEDULER_HANDLERS host !! name) as [sh0|] eqn:E; simpl.
  - split; [assumption | tauto].
  - split; [apply lookup_insert_eq|].
    intros n Hn. split; [apply lookup_insert_ne; congruence|].
    case_decide; [tauto|].
    rewrite elem_of_app, list_elem_of_singleton. tauto.
Qed.

End RegistrationFrame.

Lemma register_consistent_witness :
  host_consistent (register scheduler_name (power_shift_scheduler pow_sample) host_sample).
Proof.
  apply (register_consistent scheduler_name (power_shift_scheduler pow_sample) host_sample).
  split.
  - apply NoDup_singleton.
  - intros n. simpl.
    rewrite list_elem_of_singleton, lookup_singleton_is_Some. split; congruence.
Defined.
